(** * socialcontract: the placeholder web application of [app/main.py]

    The program is one Flask application object with one view function,
    [home], bound to the rule "/", and a guarded call of [app.run(debug=True)].
    Everything the program does goes through the web framework, so the
    development has two layers:

    - a model of the parts of Werkzeug, Jinja and Flask that the program
      calls (request routing for HTTP requests and WebSocket handshakes,
      response construction, rendering of a template source inside and
      outside an application context, the call of the development server
      and what the server makes of its environment), written after the
      framework's documented behaviour and kept executable;
    - the embedding of [main.py] itself on top of that model, followed by the
      properties of the program.  *)

From Stdlib Require Import String Ascii List Bool.
From stdpp Require Import base option strings gmap.

Local Open Scope string_scope.
Local Open Scope list_scope.

(** ** Strings as Python uses them *)

Module Str.


(** [s.startswith(p)] *)
Fixpoint startswith (p s : string) : bool :=
  match p, s with
  | EmptyString, _ => true
  | String a p', String b s' => Ascii.eqb a b && startswith p' s'
  | String _ _, EmptyString => false
  end.

(** [s.removeprefix(p)], with [None] when [p] is not a prefix. *)
Fixpoint strip_prefix (p s : string) : option string :=
  match p, s with
  | EmptyString, _ => Some s
  | String a p', String b s' =>
      if Ascii.eqb a b then strip_prefix p' s' else None
  | String _ _, EmptyString => None
  end.

(** [sub in s], executable. *)
Fixpoint contains (sub s : string) : bool :=
  startswith sub s ||
  match s with
  | EmptyString => false
  | String _ s' => contains sub s'
  end.

(** [s.endswith(p)] for a one-character [p]. *)
Fixpoint ends_with_char (c : ascii) (s : string) : bool :=
  match s with
  | EmptyString => false
  | String a EmptyString => Ascii.eqb a c
  | String _ s' => ends_with_char c s'
  end.

(** [s.lstrip("/")] *)
Fixpoint lstrip_slash (s : string) : string :=
  match s with
  | String a s' => if Ascii.eqb a "/" then lstrip_slash s' else s
  | EmptyString => EmptyString
  end.

(** [re.sub("/{2,}?", "/", s)]: every run of slashes becomes one slash. *)
Fixpoint merge_slashes (s : string) : string :=
  match s with
  | String a s' =>
      match s' with
      | String b _ =>
          if Ascii.eqb a "/" && Ascii.eqb b "/" then merge_slashes s'
          else String a (merge_slashes s')
      | EmptyString => s
      end
  | EmptyString => EmptyString
  end.

(** [c.upper()] on the ASCII letters, which is all a method token holds. *)
Definition upper_ascii (c : ascii) : ascii :=
  let n := nat_of_ascii c in
  if Nat.leb 97 n && Nat.leb n 122 then ascii_of_nat (n - 32) else c.

Fixpoint upper (s : string) : string :=
  match s with
  | EmptyString => EmptyString
  | String c s' => String (upper_ascii c) (upper s')
  end.

(** [s.lower()], likewise. *)
Definition lower_ascii (c : ascii) : ascii :=
  let n := nat_of_ascii c in
  if Nat.leb 65 n && Nat.leb n 90 then ascii_of_nat (n + 32) else c.

Fixpoint lower (s : string) : string :=
  match s with
  | EmptyString => EmptyString
  | String c s' => String (lower_ascii c) (lower s')
  end.

(** Whitespace as [str.strip()] takes it, among the characters that a
    header value can hold (Latin-1): "\t" to "\r", the separators 28 to 31,
    the space, NEL and the no-break space. *)
Definition is_space (c : ascii) : bool :=
  let n := nat_of_ascii c in
  (Nat.leb 9 n && Nat.leb n 13) || (Nat.leb 28 n && Nat.leb n 32)
  || Nat.eqb n 133 || Nat.eqb n 160.

(** [s.lstrip()] *)
Fixpoint lstrip (s : string) : string :=
  match s with
  | String a s' => if is_space a then lstrip s' else s
  | EmptyString => EmptyString
  end.

(** [s.rstrip()] *)
Fixpoint rstrip (s : string) : string :=
  match s with
  | EmptyString => EmptyString
  | String a s' =>
      match rstrip s' with
      | EmptyString => if is_space a then EmptyString else String a EmptyString
      | String b t => String a (String b t)
      end
  end.

(** [s.strip()] *)
Definition strip (s : string) : string := rstrip (lstrip s).

(** [s.split(sep)] for a one-character [sep]. *)
Fixpoint split_on (sep : ascii) (s : string) : list string :=
  match s with
  | EmptyString => [EmptyString]
  | String a s' =>
      if Ascii.eqb a sep then EmptyString :: split_on sep s'
      else match split_on sep s' with
           | x :: xs => String a x :: xs
           | [] => [String a EmptyString]
           end
  end.

(** [s.replace(a, b)] for one-character [a] and [b]. *)
Fixpoint replace_char (a b : ascii) (s : string) : string :=
  match s with
  | EmptyString => EmptyString
  | String c s' =>
      String (if Ascii.eqb c a then b else c) (replace_char a b s')
  end.

(** [x in xs] for a list of strings. *)
Definition mem (x : string) (xs : list string) : bool :=
  existsb (String.eqb x) xs.

(** Drops one final "\n". *)
Fixpoint drop_final_newline (s : string) : string :=
  match s with
  | EmptyString => EmptyString
  | String a EmptyString => if Ascii.eqb a "010" then EmptyString else s
  | String a s' => String a (drop_final_newline s')
  end.

(** Rewrites "\r\n" and "\r" to "\n". *)
Fixpoint normalize_newlines (s : string) : string :=
  match s with
  | EmptyString => EmptyString
  | String a s' =>
      if Ascii.eqb a "013" then
        match s' with
        | String b s'' =>
            if Ascii.eqb b "010" then String "010" (normalize_newlines s'')
            else String "010" (normalize_newlines s')
        | EmptyString => String "010" EmptyString
        end
      else String a (normalize_newlines s')
  end.

End Str.

(** ** Results of Python calls *)

Module Py.

(** The exceptions that the modelled calls can raise.  The first four are
    Werkzeug's HTTP exceptions (status 404, 405, 308 and 400). *)
Inductive Exn : Type :=
  | NotFound
  | MethodNotAllowed (valid_methods : list string)
  | RequestRedirect (new_path : string)
  | WebsocketMismatch
  | TypeError
  | KeyError
  | AssertionError
  | RuntimeError
  | SystemExit.

(** A call returns, raises, or leaves the fragment of the framework that is
    modelled here ([Unmodelled]: nothing is said about what the call does). *)
Inductive outcome (A : Type) : Type :=
  | Returns (a : A)
  | Raises (e : Exn)
  | Unmodelled.

Arguments Returns {A} a.
Arguments Raises {A} e.
Arguments Unmodelled {A}.

#[export] Instance outcome_ret : MRet outcome := fun A a => Returns a.

#[export] Instance outcome_bind : MBind outcome := fun A B k m =>
  match m with
  | Returns a => k a
  | Raises e => Raises e
  | Unmodelled => Unmodelled
  end.

End Py.
Import Py.

(** ** Jinja: rendering a template source

    Only sources without template syntax are evaluated.  Under the default
    environment (delimiters "{{", "{%" and "{#", no line statements,
    [keep_trailing_newline=False], newline sequence "\n") such a source is a
    single data token: line breaks are normalised and one final line break is
    dropped. *)

Module Jinja.

Definition has_template_syntax (source : string) : bool :=
  Str.contains "{{" source || Str.contains "{%" source
  || Str.contains "{#" source.

Definition render_source (source : string) : outcome string :=
  if has_template_syntax source then Unmodelled
  else Returns (Str.drop_final_newline (Str.normalize_newlines source)).

End Jinja.

(** ** Werkzeug: requests, responses and URL rules *)

Module Werkzeug.

(** The part of the WSGI environment that a request carries.  [headers]
    holds the header lines as they were sent, name and value. *)
Record Request : Type := {
  method : string;                      (* REQUEST_METHOD *)
  path : string;                        (* PATH_INFO *)
  query_string : string;                (* QUERY_STRING *)
  headers : list (string * string);     (* HTTP_* *)
  data : string;                        (* wsgi.input *)
  url_scheme : string                   (* wsgi.url_scheme *)
}.

(** The environment key under which the server stores a header:
    ["HTTP_" + name.upper().replace("-", "_")]. *)
Definition environ_key (name : string) : string :=
  "HTTP_" +:+ Str.upper (Str.replace_char "-" "_" name).

(** [environ.get(key)] for a header key: the value of the header, and for
    a header sent more than once its values in order, joined by commas. *)
Fixpoint environ_get (key : string) (hs : list (string * string))
    : option string :=
  match hs with
  | [] => None
  | (name, value) :: hs' =>
      if String.eqb (environ_key name) key then
        Some (match environ_get key hs' with
              | Some rest => value +:+ "," +:+ rest
              | None => value
              end)
      else environ_get key hs'
  end.

(** The scheme under which [Map.bind_to_environ] binds the request: a
    request whose Connection header lists "upgrade" and whose Upgrade
    header is "websocket" is bound under "ws" or "wss".  Header values are
    Latin-1 text, in which no character but an ASCII capital becomes an
    ASCII letter in lower case, so that [Str.lower] decides both tests. *)
Definition bound_scheme (req : Request) : string :=
  let connection :=
    Str.lower (default "" (environ_get "HTTP_CONNECTION" (headers req))) in
  let upgrade :=
    existsb (fun v => String.eqb (Str.strip v) "upgrade")
            (Str.split_on "," connection) in
  if upgrade
     && String.eqb
          (Str.lower (default "" (environ_get "HTTP_UPGRADE" (headers req))))
          "websocket"
  then (if String.eqb (url_scheme req) "https" then "wss" else "ws")
  else url_scheme req.

(** [MapAdapter.websocket]: the request is a WebSocket handshake. *)
Definition is_websocket (req : Request) : bool :=
  Str.mem (bound_scheme req) ["ws"; "wss"].

(** A response body is text produced by the application, or the page that
    Werkzeug itself writes for an HTTP status, whose wording is the
    framework's and is not reproduced. *)
Inductive Body : Type :=
  | Text (text : string)
  | StatusPage (code : nat).

(** A response: the status, the Content-Type header, and the Allow and
    Location headers (the latter by the path it points to) when set. *)
Record Response : Type := {
  status_code : nat;
  content_type : string;
  allow : list string;
  location : option string;
  body : Body
}.

(** [ct.split(";")[0]] *)
Fixpoint before_semicolon (ct : string) : string :=
  match ct with
  | EmptyString => EmptyString
  | String c ct' =>
      if Ascii.eqb c ";" then EmptyString else String c (before_semicolon ct')
  end.

Definition mimetype (r : Response) : string :=
  before_semicolon (content_type r).

(** [Response(text)] with the defaults of Flask's response class. *)
Definition text_response (text : string) : Response :=
  {| status_code := 200; content_type := "text/html; charset=utf-8";
     allow := []; location := None; body := Text text |}.

(** [HTTPException.get_response()] for the routing exceptions. *)
Definition status_response (code : nat) (valid : list string)
    (target : option string) : Response :=
  {| status_code := code; content_type := "text/html; charset=utf-8";
     allow := valid; location := target; body := StatusPage code |}.

(** A URL rule as [Map.add] stores it. *)
Record Rule : Type := {
  rule : string;
  methods : list string;
  endpoint : string;
  provide_automatic_options : bool;
  websocket : bool
}.

(** [Rule(string, methods=...)]: HEAD is added whenever GET is allowed. *)
Definition with_head (ms : list string) : list string :=
  if Str.mem "GET" ms && negb (Str.mem "HEAD" ms) then ms ++ ["HEAD"] else ms.

(** The pieces of a rule string: literal text and [<converter:name>]. *)
Inductive RulePart : Type :=
  | Static (text : string)
  | Converter (conv : string) (name : string).

Inductive ParseMode : Type :=
  | InStatic (acc : string)
  | InVariable (conv : option string) (acc : string).

Definition static_part (acc : string) : list RulePart :=
  if String.eqb acc "" then [] else [Static acc].

Fixpoint parse_rule_from (m : ParseMode) (s : string) : list RulePart :=
  match s, m with
  | EmptyString, InStatic acc => static_part acc
  | EmptyString, InVariable _ _ => []
  | String c s', InStatic acc =>
      if Ascii.eqb c "<"
      then static_part acc ++ parse_rule_from (InVariable None "") s'
      else parse_rule_from (InStatic (acc +:+ String c "")) s'
  | String c s', InVariable conv acc =>
      if Ascii.eqb c ">"
      then Converter (default "default" conv) acc
             :: parse_rule_from (InStatic "") s'
      else if Ascii.eqb c ":"
      then parse_rule_from (InVariable (Some acc) "") s'
      else parse_rule_from (InVariable conv (acc +:+ String c "")) s'
  end.

Definition parse_rule (s : string) : list RulePart :=
  parse_rule_from (InStatic "") s.

(** The [path] converter, regex [[^/].*?]: a non-empty value that does not
    start with a slash. *)
Definition path_value (v : string) : bool :=
  match v with
  | EmptyString => false
  | String c _ => negb (Ascii.eqb c "/")
  end.

(** Matching a path against the parts of a rule, with the values of its
    variables.  Literal rules and rules ending in one [path] variable are
    covered, which are the rules this application has; any other converter
    matches nothing here. *)
Fixpoint match_parts (parts : list RulePart) (p : string)
    : option (list (string * string)) :=
  match parts with
  | [] => if String.eqb p "" then Some [] else None
  | Static text :: rest =>
      match Str.strip_prefix text p with
      | Some p' => match_parts rest p'
      | None => None
      end
  | Converter conv name :: rest =>
      match rest with
      | [] => if String.eqb conv "path" && path_value p
              then Some [(name, p)] else None
      | _ :: _ => None
      end
  end.

Definition match_rule (r : Rule) (p : string)
    : option (list (string * string)) :=
  match_parts (parse_rule (rule r)) p.

(** What one pass of the matcher over the rules finds.  A pass that finds
    nothing leaves the methods of the rules that matched the path alone,
    and whether a rule matched path and method but not the kind of the
    request (HTTP or WebSocket). *)
Inductive Pass : Type :=
  | Found (r : Rule) (view_args : list (string * string))
  | SlashRequired
  | Nothing (have_match_for : list string) (websocket_mismatch : bool).

(** Adds the methods of a rule to the set of methods seen so far. *)
Definition note_methods (seen ms : list string) : list string :=
  seen ++ List.filter (fun m => negb (Str.mem m seen)) ms.

(** The first rule that matches the path, allows the method and is of the
    request's kind.  A rule that matches the path but not the method leaves
    its methods in [seen]; one that matches path and method but is not of
    the request's kind sets [mismatch].  The method is tested first. *)
Fixpoint find_rule (rules : list Rule) (m p : string) (ws : bool)
    (seen : list string) (mismatch : bool)
    : option (Rule * list (string * string)) * list string * bool :=
  match rules with
  | [] => (None, seen, mismatch)
  | r :: rules' =>
      match match_rule r p with
      | Some view_args =>
          if Str.mem m (methods r) then
            if Bool.eqb (websocket r) ws
            then (Some (r, view_args), seen, mismatch)
            else find_rule rules' m p ws seen true
          else find_rule rules' m p ws (note_methods seen (methods r)) mismatch
      | None => find_rule rules' m p ws seen mismatch
      end
  end.

(** [strict_slashes]: the path lacks the final slash of a rule that would
    otherwise serve this request. *)
Definition slash_required (rules : list Rule) (m p : string) (ws : bool)
    : bool :=
  existsb (fun r => Str.ends_with_char "/" (rule r)
                    && bool_decide (is_Some (match_rule r (p +:+ "/")))
                    && Bool.eqb (websocket r) ws
                    && Str.mem m (methods r)) rules.

Definition match_pass (rules : list Rule) (m p : string) (ws : bool)
    (seen : list string) (mismatch : bool) : Pass :=
  match find_rule rules m p ws seen mismatch with
  | (Some (r, view_args), _, _) => Found r view_args
  | (None, seen', mismatch') =>
      if slash_required rules m p ws then SlashRequired
      else Nothing seen' mismatch'
  end.

(** [MapAdapter.match]: leading slashes of PATH_INFO collapse to one. *)
Definition path_part (path_info : string) : string :=
  if String.eqb path_info "" then ""
  else "/" +:+ Str.lstrip_slash path_info.

(** [MapAdapter.match(path_info, method, return_rule=True)] for a request
    of kind [ws].  A path that matches only after its repeated slashes are
    merged is redirected ([merge_slashes]); rules are tried in the order of
    registration, which is Werkzeug's order whenever no two rules match the
    same path.  Where nothing is found, rules that matched the path alone
    give MethodNotAllowed; failing that, a rule that matched path and method
    but not the kind of the request gives WebsocketMismatch. *)
Definition match_url (url_map : list Rule) (ws : bool) (m path_info : string)
    : outcome (Rule * list (string * string)) :=
  let m := Str.upper m in
  let p := path_part path_info in
  match match_pass url_map m p ws [] false with
  | Found r view_args => Returns (r, view_args)
  | SlashRequired => Raises (RequestRedirect (p +:+ "/"))
  | Nothing seen mismatch =>
      let p' := Str.merge_slashes p in
      match match_pass url_map m p' ws seen mismatch with
      | Found _ _ => Raises (RequestRedirect p')
      | SlashRequired => Raises (RequestRedirect (p' +:+ "/"))
      | Nothing [] false => Raises NotFound
      | Nothing [] true => Raises WebsocketMismatch
      | Nothing (v :: vs) _ => Raises (MethodNotAllowed (v :: vs))
      end
  end.

(** [MapAdapter.allowed_methods] *)
Definition allowed_methods (url_map : list Rule) (ws : bool)
    (path_info : string) : list string :=
  match match_url url_map ws "--" path_info with
  | Raises (MethodNotAllowed valid) => valid
  | _ => []
  end.

(** *** The development server *)

(** The arguments of a call of [werkzeug.serving.run_simple], with the
    process environment in which the call is made. *)
Record RunSimpleCall : Type := {
  host : string;
  port : nat;
  use_reloader : bool;
  use_debugger : bool;
  threaded : bool;
  process_environ : gmap string string
}.

(** What the operating system decides: whether an address can be bound. *)
Record Os : Type := {
  can_bind : string -> nat -> bool
}.

(** A development server that listens on the socket it has bound: the
    application is wrapped in the debugger when [debugger] is set, and
    served under the reloader, from the child process that the reloader
    starts on the same socket, when [reloader] is set. *)
Record Server : Type := {
  bound_host : string;
  bound_port : nat;
  debugger : bool;
  reloader : bool
}.

(** [is_running_from_reloader()] *)
Definition is_running_from_reloader (environ : gmap string string) : bool :=
  bool_decide (environ !! "WERKZEUG_RUN_MAIN" = Some "true").

(** [run_simple(hostname, port, application, ...)].  A process that takes
    itself for the reloader's child (WERKZEUG_RUN_MAIN=true) binds nothing:
    it reads WERKZEUG_SERVER_FD, a KeyError when unset, and adopts the
    descriptor named there, which is not evaluated here.  Any other process
    binds the address; where that fails the server exits. *)
Definition run_simple (os : Os) (c : RunSimpleCall) : outcome Server :=
  if is_running_from_reloader (process_environ c) then
    match process_environ c !! "WERKZEUG_SERVER_FD" with
    | None => Raises KeyError
    | Some _ => Unmodelled
    end
  else if can_bind os (host c) (port c) then
    Returns {| bound_host := host c; bound_port := port c;
               debugger := use_debugger c; reloader := use_reloader c |}
  else Raises SystemExit.

End Werkzeug.

(** ** Flask: the application object *)

Module Flask.
Import Werkzeug.

(** The configuration keys that request handling and [run] read.
    SERVER_NAME, which [run] also consults, is unset in a fresh
    configuration and the program never sets it. *)
Record Config : Type := {
  DEBUG : bool;
  TESTING : bool;
  PROPAGATE_EXCEPTIONS : option bool
}.

(** What lies outside the process: for a request and a file name,
    [static_file] is the response that [send_from_directory] builds from
    the application's static folder, or [None] where it raises NotFound
    (no such file, or an unsafe name).  A world is thus a file system in
    which reading the static folder does not fail in any other way. *)
Record World : Type := {
  static_file : Request -> string -> option Response
}.

(** The application context with its request context: what a view function
    can reach through [current_app] and [request]. *)
Record Context : Type := {
  ctx_config : Config;
  ctx_request : Request;
  ctx_world : World
}.

(** The values a view returns here: a string, or a response object. *)
Inductive ViewRv : Type :=
  | RvStr (text : string)
  | RvResponse (r : Response).

(** A view function: a token for the identity of the function object, its
    [__name__], and its call with keyword arguments.  The call is made with
    the context that is active at that moment, [None] when the function is
    called outside any application context. *)
Record ViewFunction : Type := {
  func_id : string;
  func_name : string;
  call : option Context -> list (string * string) -> outcome ViewRv
}.

(** A Python function without parameters that returns a string, as a view:
    calling it with a keyword argument is a TypeError. *)
Definition nullary (id name : string) (f : option Context -> outcome string)
    : ViewFunction :=
  {| func_id := id; func_name := name;
     call := fun ctx kwargs =>
       match kwargs with
       | [] => s ← f ctx; mret (RvStr s)
       | _ :: _ => Raises TypeError
       end |}.

Record App : Type := {
  import_name : string;
  config : Config;
  url_map : list Rule;
  view_functions : gmap string ViewFunction;
  got_first_request : bool
}.

(** [get_debug_flag()]: FLASK_DEBUG, unless empty, "0", "false" or "no". *)
Definition get_debug_flag (environ : gmap string string) : bool :=
  match environ !! "FLASK_DEBUG" with
  | Some val =>
      negb (String.eqb val "")
      && negb (Str.mem (Str.lower val) ["0"; "false"; "no"])
  | None => false
  end.

(** [add_url_rule(rule, endpoint, view_func, methods=...)].  A set-up call
    on an application that has handled a request is refused.  The endpoint
    defaults to the function's name and the methods to GET; OPTIONS is
    added and answered automatically.  An endpoint that already has a view
    function accepts that same function again and refuses any other. *)
Definition add_url_rule (a : App) (rule_string : string)
    (endpoint_opt : option string) (view_func : ViewFunction)
    (methods_opt : option (list string)) : outcome App :=
  if got_first_request a then Raises AssertionError
  else
    let ep := default (func_name view_func) endpoint_opt in
    let ms := map Str.upper (default ["GET"] methods_opt) in
    let automatic := negb (Str.mem "OPTIONS" ms) in
    let ms := if automatic then ms ++ ["OPTIONS"] else ms in
    let r := {| rule := rule_string; methods := with_head ms; endpoint := ep;
                provide_automatic_options := automatic;
                websocket := false |} in
    let a' := {| import_name := import_name a; config := config a;
                 url_map := url_map a ++ [r];
                 view_functions := <[ep := view_func]> (view_functions a);
                 got_first_request := got_first_request a |} in
    match view_functions a !! ep with
    | Some old =>
        if String.eqb (func_id old) (func_id view_func) then Returns a'
        else Raises AssertionError
    | None => Returns a'
    end.

(** The decorator [@app.route(rule)]. *)
Definition route (a : App) (rule_string : string) (f : ViewFunction)
    : outcome App :=
  add_url_rule a rule_string None f None.

(** The view behind the "static" endpoint: an anonymous function that
    passes its keyword arguments to [send_static_file]. *)
Definition send_static_file : ViewFunction :=
  {| func_id := "flask.app.Flask.send_static_file";
     func_name := "<lambda>";
     call := fun ctx kwargs =>
       match kwargs with
       | [(name, filename)] =>
           if String.eqb name "filename" then
             match ctx with
             | Some ctx =>
                 match static_file (ctx_world ctx) (ctx_request ctx) filename
                 with
                 | Some r => Returns (RvResponse r)
                 | None => Raises NotFound
                 end
             | None => Raises RuntimeError
             end
           else Raises TypeError
       | _ => Raises TypeError
       end |}.

(** [Flask(import_name)]: the default configuration, with DEBUG read from
    the environment, and the rule for the static folder, which the
    constructor registers because [static_folder] defaults to "static". *)
Definition Flask (name : string) (environ : gmap string string)
    : outcome App :=
  add_url_rule
    {| import_name := name;
       config := {| DEBUG := get_debug_flag environ; TESTING := false;
                    PROPAGATE_EXCEPTIONS := None |};
       url_map := []; view_functions := ∅; got_first_request := false |}
    "/static/<path:filename>" (Some "static") send_static_file None.

(** [render_template_string(source)] with no context variables.  The
    template environment is that of [current_app]: without an application
    context the call raises RuntimeError. *)
Definition render_template_string (ctx : option Context) (source : string)
    : outcome string :=
  match ctx with
  | Some _ => Jinja.render_source source
  | None => Raises RuntimeError
  end.

(** [make_response(rv)] *)
Definition make_response (rv : ViewRv) : Response :=
  match rv with
  | RvStr text => text_response text
  | RvResponse r => r
  end.

(** [make_default_options_response()] *)
Definition make_default_options_response (a : App) (req : Request)
    : Response :=
  {| status_code := 200; content_type := "text/html; charset=utf-8";
     allow := allowed_methods (url_map a) (is_websocket req) (path req);
     location := None; body := Text "" |}.

(** What answers a matched request: the automatic OPTIONS response, or
    the view function of the rule's endpoint with the rule's variables. *)
Inductive Handler : Type :=
  | AutomaticOptions
  | ViewCall (ep : string) (view_args : list (string * string)).

(** The URL matching that pushing the request context performs, and the
    choice that [dispatch_request()] makes on its result. *)
Definition handler_for (a : App) (req : Request) : outcome Handler :=
  '(r, view_args) ← match_url (url_map a) (is_websocket req) (method req)
                       (path req);
  if provide_automatic_options r
     && String.eqb (Str.upper (method req)) "OPTIONS"
  then Returns AutomaticOptions
  else Returns (ViewCall (endpoint r) view_args).

(** [dispatch_request()]: the view is called inside the context of the
    request. *)
Definition dispatch_request (w : World) (a : App) (req : Request)
    : outcome ViewRv :=
  h ← handler_for a req;
  match h with
  | AutomaticOptions =>
      Returns (RvResponse (make_default_options_response a req))
  | ViewCall ep view_args =>
      match view_functions a !! ep with
      | Some f =>
          call f (Some {| ctx_config := config a; ctx_request := req;
                          ctx_world := w |}) view_args
      | None => Raises KeyError
      end
  end.

(** The response an HTTP exception turns into; [None] for other errors. *)
Definition http_exception_response (e : Exn) : option Response :=
  match e with
  | NotFound => Some (status_response 404 [] None)
  | MethodNotAllowed valid => Some (status_response 405 valid None)
  | RequestRedirect target => Some (status_response 308 [] (Some target))
  | WebsocketMismatch => Some (status_response 400 [] None)
  | TypeError | KeyError | AssertionError | RuntimeError | SystemExit => None
  end.

(** [full_dispatch_request()]: marks the first request, dispatches, and
    turns HTTP exceptions into responses; other exceptions pass through. *)
Definition full_dispatch_request (w : World) (a : App) (req : Request)
    : App * outcome Response :=
  let a' := {| import_name := import_name a; config := config a;
               url_map := url_map a; view_functions := view_functions a;
               got_first_request := true |} in
  (a', match dispatch_request w a' req with
       | Returns rv => Returns (make_response rv)
       | Raises e =>
           match http_exception_response e with
           | Some r => Returns r
           | None => Raises e
           end
       | Unmodelled => Unmodelled
       end).

(** [handle_exception(e)]: re-raised when exceptions propagate (debug or
    testing), a 500 page otherwise. *)
Definition handle_exception (a : App) (e : Exn) : outcome Response :=
  let propagate :=
    default (TESTING (config a) || DEBUG (config a))
            (PROPAGATE_EXCEPTIONS (config a)) in
  if propagate then Raises e else Returns (status_response 500 [] None).

(** [wsgi_app(environ, start_response)]: the response as it is sent; the
    body is left out when the request method is HEAD. *)
Definition wsgi_app (w : World) (a : App) (req : Request)
    : App * outcome Response :=
  let '(a', res) := full_dispatch_request w a req in
  (a', match res with
       | Returns r =>
           Returns (if String.eqb (method req) "HEAD"
                    then {| status_code := status_code r;
                            content_type := content_type r;
                            allow := allow r; location := location r;
                            body := Text "" |}
                    else r)
       | Raises e => handle_exception a' e
       | Unmodelled => Unmodelled
       end).

(** [get_load_dotenv(default)] *)
Definition get_load_dotenv (environ : gmap string string) (dflt : bool)
    : bool :=
  match environ !! "FLASK_SKIP_DOTENV" with
  | Some val =>
      if String.eqb val "" then dflt
      else Str.mem (Str.lower val) ["0"; "false"; "no"]
  | None => dflt
  end.

Definition set_debug (a : App) (d : bool) : App :=
  {| import_name := import_name a;
     config := {| DEBUG := d; TESTING := TESTING (config a);
                  PROPAGATE_EXCEPTIONS := PROPAGATE_EXCEPTIONS (config a) |};
     url_map := url_map a; view_functions := view_functions a;
     got_first_request := got_first_request a |}.

(** [app.run(host, port, debug, load_dotenv)].  [environ] is the process
    environment and [dotenv] the variables that the .env and .flaskenv
    files would add to it.  The result is the application as [run]
    configures it and the call of [run_simple] that [run] makes, if any:
    under FLASK_RUN_FROM_CLI=true the call of [run] is ignored.  The call
    of [run_simple] is made in the environment as the .env files have
    extended it; what becomes of it is [Werkzeug.run_simple]. *)
Definition run (a : App) (environ dotenv : gmap string string)
    (host_opt : option string) (port_opt : option nat)
    (debug : option bool) (load_dotenv : bool)
    : App * option RunSimpleCall :=
  if bool_decide (environ !! "FLASK_RUN_FROM_CLI" = Some "true")
  then (a, None)
  else
    let loaded := get_load_dotenv environ load_dotenv in
    let environ' := if loaded then environ ∪ dotenv else environ in
    let a1 :=
      if loaded && bool_decide (is_Some (environ' !! "FLASK_DEBUG"))
      then set_debug a (get_debug_flag environ') else a in
    let a2 := match debug with
              | Some d => set_debug a1 d
              | None => a1
              end in
    (a2, Some {| host := default "127.0.0.1" host_opt;
                 port := default 5000 port_opt;
                 use_reloader := DEBUG (config a2);
                 use_debugger := DEBUG (config a2);
                 threaded := true;
                 process_environ := environ' |}).

End Flask.

(** ** The program: [app/main.py] *)

Import Werkzeug Flask.

(** The string literal that [home] passes to [render_template_string]. *)
Definition home_source : string := "
        <!doctype html>
        <title>Social Contract App</title>
        <h1>Social Contract App</h1>
        <p>Build your features here.</p>
        ".

(** [def home(): return render_template_string(...)].  The function has no
    parameter; [ctx] is the context in which it is called. *)
Definition home (ctx : option Context) : outcome string :=
  render_template_string ctx home_source.

(** The module's top level up to the entry-point guard:
    [app = Flask(__name__)] and [@app.route("/")] on [home]. *)
Definition app (name : string) (environ : gmap string string) : outcome App :=
  a ← Flask name environ;
  route a "/" (nullary (name +:+ ".home") "home" home).

(** The whole module, executed under the name [name]:
    [if __name__ == "__main__": app.run(debug=True)].  Neither the module nor
    [run] reads the command line [argv]. *)
Definition main (name : string) (argv : list string)
    (environ dotenv : gmap string string)
    : outcome (App * option RunSimpleCall) :=
  a ← app name environ;
  if String.eqb name "__main__"
  then mret (run a environ dotenv None None (Some true) true)
  else mret (a, None).

(** The application after it has served a sequence of requests, each in the
    world of its moment. *)
Fixpoint serve (a : App) (history : list (World * Request)) : App :=
  match history with
  | [] => a
  | (w, req) :: rest => serve (fst (wsgi_app w a req)) rest
  end.

(** The response to [req] once [history] has been served. *)
Definition respond (a : App) (history : list (World * Request))
    (w : World) (req : Request) : outcome Response :=
  snd (wsgi_app w (serve a history) req).

(** The world of the repository as it stands: no static folder is shipped. *)
Definition bare_world : World := {| static_file := fun _ _ => None |}.

(** A request over HTTP with nothing but a method and a path. *)
Definition bare_request (m p : string) : Request :=
  {| method := m; path := p; query_string := ""; headers := []; data := "";
     url_scheme := "http" |}.

(** A GET request to "/" with a query string, a cookie and a body. *)
Definition busy_request : Request :=
  {| method := "GET"; path := "/"; query_string := "next=%2Fadmin&page=2";
     headers := [("Cookie", "session=abc"); ("Accept", "application/json")];
     data := "ignored"; url_scheme := "http" |}.

(** A WebSocket handshake: a request of method [m] to [p] with the headers
    that ask for the upgrade. *)
Definition handshake_request (m p : string) : Request :=
  {| method := m; path := p; query_string := "";
     headers := [("Host", "localhost:5000"); ("Connection", "keep-alive, Upgrade");
                 ("Upgrade", "websocket")];
     data := ""; url_scheme := "http" |}.

(** A world whose static folder holds one style sheet. *)
Definition styled_world : World :=
  {| static_file := fun _ filename =>
       if String.eqb filename "style.css"
       then Some {| status_code := 200;
                    content_type := "text/css; charset=utf-8";
                    allow := []; location := None;
                    body := Text "body { margin: 0 }" |}
       else None |}.

(** An operating system on which every address is free, and one on which
    none is. *)
Definition free_os : Os := {| can_bind := fun _ _ => true |}.
Definition busy_os : Os := {| can_bind := fun _ _ => false |}.

(** * Properties *)

(** ** Strings *)

Section StringFacts.









Lemma startswith_of_app (t v : string) :
  Str.startswith t (t +:+ v) = true.
Proof.
  induction t as [|a t IH]; [reflexivity|].
  change (String a t +:+ v) with (String a (t +:+ v)).
  cbn [Str.startswith]. rewrite Ascii.eqb_refl. exact IH.
Qed.

End StringFacts.

(** ** Start-up *)

(** The module's top level always succeeds, and this is the application
    object it builds: the framework's static rule and the rule for [home],
    both for GET, OPTIONS and HEAD, and both for HTTP requests. *)
Lemma app_value (name : string) (environ : gmap string string) :
  app name environ
  = Returns
      {| import_name := name;
         config := {| DEBUG := get_debug_flag environ; TESTING := false;
                      PROPAGATE_EXCEPTIONS := None |};
         url_map :=
           [ {| rule := "/static/<path:filename>";
                methods := ["GET"; "OPTIONS"; "HEAD"];
                endpoint := "static"; provide_automatic_options := true;
                websocket := false |};
             {| rule := "/"; methods := ["GET"; "OPTIONS"; "HEAD"];
                endpoint := "home"; provide_automatic_options := true;
                websocket := false |} ];
         view_functions :=
           <["home" := nullary (name +:+ ".home") "home" home]>
             (<["static" := send_static_file]> ∅);
         got_first_request := false |}.
Proof. reflexivity. Qed.

(** ** Serving requests *)

(** Handling a request touches nothing but the first-request mark. *)
Lemma wsgi_app_frame (w : World) (a : App) (req : Request) :
  fst (wsgi_app w a req)
  = {| import_name := import_name a; config := config a;
       url_map := url_map a; view_functions := view_functions a;
       got_first_request := true |}.
Proof. reflexivity. Qed.

Lemma serve_frame (a : App) (history : list (World * Request)) :
  exists mark,
    serve a history
    = {| import_name := import_name a; config := config a;
         url_map := url_map a; view_functions := view_functions a;
         got_first_request := mark |}.
Proof.
  revert a; induction history as [|[w req] rest IH]; intros a.
  - exists (got_first_request a). destruct a; reflexivity.
  - cbn [serve]. destruct (IH (fst (wsgi_app w a req))) as [mark ->].
    exists mark. rewrite wsgi_app_frame. reflexivity.
Qed.

(** The response does not depend on the first-request mark. *)
Lemma wsgi_app_mark (w : World) (a : App) (req : Request) (mark : bool) :
  snd (wsgi_app w
         {| import_name := import_name a; config := config a;
            url_map := url_map a; view_functions := view_functions a;
            got_first_request := mark |} req)
  = snd (wsgi_app w a req).
Proof. reflexivity. Qed.

(** Hence earlier requests leave no trace in a response. *)
Lemma respond_history (a : App) (history : list (World * Request))
    (w : World) (req : Request) :
  respond a history w req = snd (wsgi_app w a req).
Proof.
  unfold respond. destruct (serve_frame a history) as [mark ->].
  apply wsgi_app_mark.
Qed.

(** ** Routing *)

Section Routing.

(** The two rules of the application. *)
Local Abbreviation static_rule :=
  {| rule := "/static/<path:filename>"; methods := ["GET"; "OPTIONS"; "HEAD"];
     endpoint := "static"; provide_automatic_options := true;
     websocket := false |}.
Local Abbreviation home_rule :=
  {| rule := "/"; methods := ["GET"; "OPTIONS"; "HEAD"];
     endpoint := "home"; provide_automatic_options := true;
     websocket := false |}.
Local Abbreviation site_methods := ["GET"; "OPTIONS"; "HEAD"].

Lemma match_static_rule (p : string) :
  match_rule static_rule p
  = match Str.strip_prefix "/static/" p with
    | Some v => if path_value v then Some [("filename", v)] else None
    | None => None
    end.
Proof. reflexivity. Qed.

Lemma match_home_rule (p : string) :
  match_rule home_rule p
  = match Str.strip_prefix "/" p with
    | Some v => if String.eqb v "" then Some [] else None
    | None => None
    end.
Proof. reflexivity. Qed.


(** Neither rule is short of a final slash for a WebSocket handshake, nor
    for a method outside the rules. *)
Lemma slash_required_handshake (u p : string) :
  slash_required [static_rule; home_rule] u p true = false.
Proof.
  unfold slash_required. cbn [existsb websocket Bool.eqb].
  rewrite !andb_false_r. reflexivity.
Qed.

Lemma slash_required_method (u p : string) (ws : bool) :
  slash_required [static_rule; home_rule] u p ws = true ->
  Str.mem u site_methods = true.
Proof.
  unfold slash_required. cbn [existsb methods].
  destruct (Str.mem u site_methods); [reflexivity|].
  rewrite !andb_false_r. discriminate.
Qed.



(** The path "/" belongs to [home]'s rule alone.  A method outside the
    rule's list leaves that list behind; a handshake with a method of the
    list leaves the mismatch. *)
Lemma find_rule_root (u : string) (ws : bool) (seen : list string)
    (mismatch : bool) :
  find_rule [static_rule; home_rule] u "/" ws seen mismatch
  = if Str.mem u site_methods
    then (if ws then (None, seen, true)
          else (Some (home_rule, []), seen, mismatch))
    else (None, note_methods seen site_methods, mismatch).
Proof. destruct ws; reflexivity. Qed.

Lemma slash_required_root (u : string) (ws : bool) :
  slash_required [static_rule; home_rule] u "/" ws = false.
Proof. reflexivity. Qed.

Lemma match_url_root (ws : bool) (m : string) :
  match_url [static_rule; home_rule] ws m "/"
  = if Str.mem (Str.upper m) site_methods
    then (if ws then Raises WebsocketMismatch
          else Returns (home_rule, []))
    else Raises (MethodNotAllowed site_methods).
Proof.
  unfold match_url, match_pass.
  change (path_part "/") with "/". change (Str.merge_slashes "/") with "/".
  rewrite find_rule_root.
  destruct (Str.mem (Str.upper m) site_methods) eqn:E.
  - destruct ws; [|reflexivity].
    rewrite slash_required_root, find_rule_root, E. reflexivity.
  - rewrite slash_required_root, find_rule_root, E. reflexivity.
Qed.

Lemma strip_prefix_app (t p v : string) :
  Str.strip_prefix t p = Some v -> p = t +:+ v.
Proof.
  revert p; induction t as [|a t IH]; intros p.
  - cbn [Str.strip_prefix]. intros [= ->]. reflexivity.
  - destruct p as [|b p]; cbn [Str.strip_prefix]; [discriminate|].
    destruct (Ascii.eqb_spec a b) as [->|]; [|discriminate].
    intros H. rewrite (IH _ H). reflexivity.
Qed.


Lemma match_static_inv (p : string) (view_args : list (string * string)) :
  match_rule static_rule p = Some view_args ->
  exists v, view_args = [("filename", v)]
            /\ p = "/static/" +:+ v /\ path_value v = true.
Proof.
  rewrite match_static_rule.
  destruct (Str.strip_prefix "/static/" p) as [v|] eqn:E; [|discriminate].
  destruct (path_value v) eqn:Ev; [|discriminate].
  intros [= <-]. exists v. apply strip_prefix_app in E. auto.
Qed.

Lemma match_home_inv (p : string) (view_args : list (string * string)) :
  match_rule home_rule p = Some view_args -> view_args = [] /\ p = "/".
Proof.
  rewrite match_home_rule.
  destruct (Str.strip_prefix "/" p) as [v|] eqn:E; [|discriminate].
  destruct (String.eqb_spec v "") as [->|]; [|discriminate].
  intros [= <-]. apply strip_prefix_app in E. auto.
Qed.

(** The search through the two rules, by what the path matches: a path
    belongs to one rule at most, which is [home]'s for "/" and the static
    rule for "/static/<name>". *)
Lemma find_rule_cases (u p : string) (ws : bool) (seen : list string)
    (mismatch : bool) :
  (exists r view_args,
     ((r = home_rule /\ view_args = [] /\ p = "/")
      \/ (r = static_rule
          /\ exists v, view_args = [("filename", v)]
                       /\ p = "/static/" +:+ v /\ path_value v = true))
     /\ find_rule [static_rule; home_rule] u p ws seen mismatch
        = if Str.mem u site_methods
          then (if ws then (None, seen, true)
                else (Some (r, view_args), seen, mismatch))
          else (None, note_methods seen site_methods, mismatch))
  \/ find_rule [static_rule; home_rule] u p ws seen mismatch
     = (None, seen, mismatch).
Proof.
  cbn [find_rule].
  destruct (match_rule static_rule p) as [va|] eqn:Es.
  - destruct (match_static_inv _ _ Es) as (v & -> & Hp & Hv).
    assert (Hno : match_rule home_rule p = None).
    { destruct (match_rule home_rule p) as [vb|] eqn:Eh; [|reflexivity].
      apply match_home_inv in Eh as [_ Eh]. rewrite Eh in Hp.
      discriminate. }
    rewrite Hno. cbn [methods websocket].
    left. exists static_rule, [("filename", v)].
    split; [right; split; [reflexivity|]; exists v; auto|].
    destruct (Str.mem u site_methods); [|reflexivity].
    destruct ws; reflexivity.
  - destruct (match_rule home_rule p) as [vb|] eqn:Eh; [|right; reflexivity].
    destruct (match_home_inv _ _ Eh) as [-> Hp].
    cbn [methods websocket].
    left. exists home_rule, []. split; [left; auto|].
    destruct (Str.mem u site_methods); [|reflexivity].
    destruct ws; reflexivity.
Qed.

(** What one pass of the matcher comes to. *)
Lemma match_pass_cases (u p : string) (ws : bool) (seen : list string)
    (mismatch : bool) :
  (exists r view_args,
     ((r = home_rule /\ view_args = [] /\ p = "/")
      \/ (r = static_rule
          /\ exists v, view_args = [("filename", v)]
                       /\ p = "/static/" +:+ v /\ path_value v = true))
     /\ match_pass [static_rule; home_rule] u p ws seen mismatch
        = if Str.mem u site_methods
          then (if ws then Nothing seen true else Found r view_args)
          else Nothing (note_methods seen site_methods) mismatch)
  \/ (match_pass [static_rule; home_rule] u p ws seen mismatch
      = SlashRequired
      /\ Str.mem u site_methods = true /\ ws = false)
  \/ match_pass [static_rule; home_rule] u p ws seen mismatch
     = Nothing seen mismatch.
Proof.
  unfold match_pass.
  assert (Hslash : slash_required [static_rule; home_rule] u p ws = true ->
                   Str.mem u site_methods = true /\ ws = false).
  { intros H. split; [exact (slash_required_method _ _ _ H)|].
    destruct ws; [|reflexivity].
    rewrite slash_required_handshake in H. discriminate. }
  destruct (find_rule_cases u p ws seen mismatch)
    as [(r & va & Hc & ->)| ->].
  - destruct (Str.mem u site_methods) eqn:Em.
    + destruct ws.
      * rewrite slash_required_handshake.
        left. exists r, va. auto.
      * left. exists r, va. auto.
    + destruct (slash_required _ u p ws) eqn:Esl.
      * destruct (Hslash eq_refl) as [Hm _]. discriminate.
      * left. exists r, va. auto.
  - destruct (slash_required _ u p ws) eqn:Esl.
    + right; left. split; [reflexivity|]. exact (Hslash eq_refl).
    + right; right. reflexivity.
Qed.

(** A request is accepted only as an HTTP request with a method of the
    rules, and then for [home] at "/" or for the static view at
    "/static/<name>". *)
Lemma match_url_returns (ws : bool) (m p : string) (r : Rule)
    (view_args : list (string * string)) :
  match_url [static_rule; home_rule] ws m p = Returns (r, view_args) ->
  Str.mem (Str.upper m) site_methods = true
  /\ ws = false
  /\ ((r = home_rule /\ view_args = [] /\ path_part p = "/")
      \/ (r = static_rule
          /\ exists v, view_args = [("filename", v)]
                       /\ path_part p = "/static/" +:+ v
                       /\ path_value v = true)).
Proof.
  unfold match_url.
  destruct (match_pass_cases (Str.upper m) (path_part p) ws [] false)
    as [(r0 & va & Hc & ->)|[(-> & _)| ->]].
  - destruct (Str.mem (Str.upper m) site_methods); [destruct ws|].
    + destruct (match_pass _ _ (Str.merge_slashes _) _ _ _)
        as [? ?| |[|? ?] [|]]; discriminate.
    + intros [= <- <-]. auto.
    + destruct (match_pass _ _ (Str.merge_slashes _) _ _ _)
        as [? ?| |[|? ?] [|]]; discriminate.
  - discriminate.
  - destruct (match_pass _ _ (Str.merge_slashes _) _ _ _)
      as [? ?| |[|? ?] [|]]; discriminate.
Qed.

(** The matcher raises nothing but its four HTTP exceptions, and never
    leaves the model. *)
Lemma match_url_raises (ws : bool) (m p : string) :
  match match_url [static_rule; home_rule] ws m p with
  | Returns _ => True
  | Raises e =>
      e = NotFound \/ (exists valid, e = MethodNotAllowed valid)
      \/ (exists target, e = RequestRedirect target)
      \/ e = WebsocketMismatch
  | Unmodelled => False
  end.
Proof.
  unfold match_url.
  destruct (match_pass _ _ (path_part p) _ _ _) as [? ?| |s b];
    [exact I|eauto|].
  destruct (match_pass _ _ (Str.merge_slashes _) _ _ _)
    as [? ?| |[|? ?] [|]]; eauto 6.
Qed.


(** A WebSocket handshake is never accepted and never redirected. *)
Lemma match_url_handshake (m p : string) :
  exists e,
    match_url [static_rule; home_rule] true m p = Raises e
    /\ (e = NotFound \/ (exists valid, e = MethodNotAllowed valid)
        \/ e = WebsocketMismatch).
Proof.
  unfold match_url.
  assert (Hpass : forall q seen mismatch,
    exists seen' mismatch',
      match_pass [static_rule; home_rule] (Str.upper m) q true seen mismatch
      = Nothing seen' mismatch').
  { intros q seen mismatch.
    destruct (match_pass_cases (Str.upper m) q true seen mismatch)
      as [(r0 & va & _ & ->)|[(_ & _ & E)| ->]].
    - destruct (Str.mem (Str.upper m) site_methods); eauto.
    - discriminate.
    - eauto. }
  destruct (Hpass (path_part p) [] false) as (s1 & b1 & ->).
  destruct (Hpass (Str.merge_slashes (path_part p)) s1 b1) as (s2 & b2 & ->).
  destruct s2, b2; eauto 6.
Qed.


End Routing.

(** ** Dispatch *)

Section Dispatch.

Lemma bind_returns {A B : Type} (a : A) (k : A -> outcome B) :
  Returns a ≫= k = k a.
Proof. reflexivity. Qed.

Lemma bind_raises {A B : Type} (e : Exn) (k : A -> outcome B) :
  Raises e ≫= k = Raises e.
Proof. reflexivity. Qed.

Lemma lookup_home (f g : ViewFunction) :
  (<["home" := f]> (<["static" := g]> (∅ : gmap string ViewFunction)))
    !! "home" = Some f.
Proof. apply lookup_insert_eq. Qed.

Lemma lookup_static (f g : ViewFunction) :
  (<["home" := f]> (<["static" := g]> (∅ : gmap string ViewFunction)))
    !! "static" = Some g.
Proof. rewrite lookup_insert_ne by discriminate. apply lookup_insert_eq. Qed.

End Dispatch.

(** The handling of one request by an application that has the two rules
    and the two view functions of the program, whatever its configuration
    and its first-request mark. *)

Section Handling.

Local Abbreviation static_rule :=
  {| rule := "/static/<path:filename>"; methods := ["GET"; "OPTIONS"; "HEAD"];
     endpoint := "static"; provide_automatic_options := true;
     websocket := false |}.
Local Abbreviation home_rule :=
  {| rule := "/"; methods := ["GET"; "OPTIONS"; "HEAD"];
     endpoint := "home"; provide_automatic_options := true;
     websocket := false |}.
Local Abbreviation site_methods := ["GET"; "OPTIONS"; "HEAD"].

Variable name : string.
Variable a : App.
Hypothesis a_rules : url_map a = [static_rule; home_rule].
Hypothesis a_views :
  view_functions a
  = <["home" := nullary (name +:+ ".home") "home" home]>
      (<["static" := send_static_file]> ∅).

(** The four ways a request can go.  A view and the automatic OPTIONS
    response are reached by HTTP requests only. *)
Lemma handler_for_cases (req : Request) :
  (handler_for a req = Returns AutomaticOptions
   /\ Str.upper (method req) = "OPTIONS"
   /\ is_websocket req = false)
  \/ (handler_for a req = Returns (ViewCall "home" [])
      /\ path_part (path req) = "/"
      /\ Str.mem (Str.upper (method req)) ["GET"; "HEAD"] = true
      /\ is_websocket req = false)
  \/ (exists v,
        handler_for a req = Returns (ViewCall "static" [("filename", v)])
        /\ path_part (path req) = "/static/" +:+ v
        /\ path_value v = true
        /\ Str.mem (Str.upper (method req)) ["GET"; "HEAD"] = true
        /\ is_websocket req = false)
  \/ (exists e,
        handler_for a req = Raises e
        /\ (e = NotFound \/ (exists valid, e = MethodNotAllowed valid)
            \/ (exists target, e = RequestRedirect target)
            \/ e = WebsocketMismatch)).
Proof.
  unfold handler_for. rewrite a_rules.
  pose proof (match_url_raises (is_websocket req) (method req) (path req))
    as Hr.
  destruct (match_url _ _ (method req) (path req)) as [[r args]|e|] eqn:E;
    [|right; right; right; exists e; split; [reflexivity|exact Hr]
     |contradiction].
  rewrite bind_returns.
  apply match_url_returns in E as (Hm & Hws & Hcase).
  assert (Hmem : String.eqb (Str.upper (method req)) "OPTIONS" = false ->
                 Str.mem (Str.upper (method req)) ["GET"; "HEAD"] = true).
  { intros Ho. unfold Str.mem in Hm |- *. cbn [existsb] in Hm |- *.
    rewrite Ho in Hm. cbn [orb] in Hm. exact Hm. }
  destruct Hcase as [(-> & -> & Hp)|(-> & v & -> & Hp & Hv)];
    cbv [provide_automatic_options endpoint];
    destruct (String.eqb_spec (Str.upper (method req)) "OPTIONS") as [Ho|Ho];
    cbn [andb]; auto.
  - right; left. auto.
  - right; right; left. exists v. auto 6.
Qed.

Lemma dispatch_options (w : World) (req : Request) :
  handler_for a req = Returns AutomaticOptions ->
  dispatch_request w a req
  = Returns (RvResponse (make_default_options_response a req)).
Proof. unfold dispatch_request. intros ->. reflexivity. Qed.

Lemma dispatch_home (w : World) (req : Request) :
  handler_for a req = Returns (ViewCall "home" []) ->
  dispatch_request w a req = Returns (RvStr home_source).
Proof.
  unfold dispatch_request. intros ->.
  rewrite bind_returns, a_views, lookup_home. reflexivity.
Qed.

Lemma dispatch_static (w : World) (req : Request) (v : string) :
  handler_for a req = Returns (ViewCall "static" [("filename", v)]) ->
  dispatch_request w a req
  = match static_file w req v with
    | Some r => Returns (RvResponse r)
    | None => Raises NotFound
    end.
Proof.
  unfold dispatch_request. intros ->.
  rewrite bind_returns, a_views, lookup_static. reflexivity.
Qed.

Lemma dispatch_raises (w : World) (req : Request) (e : Exn) :
  handler_for a req = Raises e -> dispatch_request w a req = Raises e.
Proof. unfold dispatch_request. intros ->. reflexivity. Qed.

(** What dispatching a request comes to: the automatic OPTIONS response,
    the page of [home], a file of the static folder, or one of the HTTP
    exceptions 308, 400, 404 and 405. *)
Lemma dispatch_request_cases (w : World) (req : Request) :
  (dispatch_request w a req
   = Returns (RvResponse (make_default_options_response a req))
   /\ Str.upper (method req) = "OPTIONS"
   /\ is_websocket req = false)
  \/ (dispatch_request w a req = Returns (RvStr home_source)
      /\ path_part (path req) = "/"
      /\ Str.mem (Str.upper (method req)) ["GET"; "HEAD"] = true
      /\ is_websocket req = false)
  \/ (exists v r0,
        dispatch_request w a req = Returns (RvResponse r0)
        /\ static_file w req v = Some r0
        /\ path_part (path req) = "/static/" +:+ v
        /\ Str.mem (Str.upper (method req)) ["GET"; "HEAD"] = true
        /\ is_websocket req = false)
  \/ (exists e r,
        dispatch_request w a req = Raises e
        /\ http_exception_response e = Some r
        /\ In (status_code r) [308; 400; 404; 405]
        /\ ((exists v, path_part (path req) = "/static/" +:+ v)
            \/ handler_for a req = Raises e)).
Proof.
  destruct (handler_for_cases req)
    as [(H & Ho & Hw)|[(H & Hp & Hm & Hw)
                      |[(v & H & Hp & Hv & Hm & Hw)|(e & H & He)]]].
  - left. split; [exact (dispatch_options w req H)|auto].
  - right; left. split; [exact (dispatch_home w req H)|auto].
  - rewrite (dispatch_static w req v H).
    destruct (static_file w req v) as [r0|] eqn:Ef.
    + right; right; left. exists v, r0. rewrite Ef. auto 6.
    + right; right; right. eexists NotFound, _.
      split; [reflexivity|]. split; [reflexivity|].
      split; [cbn; auto|]. left. exists v. exact Hp.
  - right; right; right. rewrite (dispatch_raises w req e H).
    destruct He as [->|[[valid ->]|[[target ->]| ->]]];
      eexists _, _; (split; [reflexivity|]); (split; [reflexivity|]);
      (split; [cbn; auto|]); right; exact H.
Qed.

End Handling.

(** ** Every request *)

Section Responses.

Local Abbreviation static_rule :=
  {| rule := "/static/<path:filename>"; methods := ["GET"; "OPTIONS"; "HEAD"];
     endpoint := "static"; provide_automatic_options := true;
     websocket := false |}.
Local Abbreviation home_rule :=
  {| rule := "/"; methods := ["GET"; "OPTIONS"; "HEAD"];
     endpoint := "home"; provide_automatic_options := true;
     websocket := false |}.
Local Abbreviation site_views name :=
  (<["home" := nullary (name +:+ ".home") "home" home]>
     (<["static" := send_static_file]> ∅)).

(** Two applications with the program's rules and views pick the same
    handler and dispatch alike, whatever their names and configurations. *)
Lemma dispatch_request_agree (w : World) (name1 name2 : string)
    (a1 a2 : App) (req : Request) :
  url_map a1 = [static_rule; home_rule] ->
  view_functions a1 = site_views name1 ->
  url_map a2 = [static_rule; home_rule] ->
  view_functions a2 = site_views name2 ->
  dispatch_request w a1 req = dispatch_request w a2 req.
Proof.
  intros R1 V1 R2 V2.
  assert (Hh : handler_for a1 req = handler_for a2 req).
  { unfold handler_for. rewrite R1, R2. reflexivity. }
  destruct (handler_for_cases a1 R1 req)
    as [[H _]|[(H & _)|[(v & H & _)|(e & H & _)]]].
  - rewrite (dispatch_options a1 w req H).
    rewrite Hh in H. rewrite (dispatch_options a2 w req H).
    unfold make_default_options_response. rewrite R1, R2. reflexivity.
  - rewrite (dispatch_home name1 a1 V1 w req H).
    rewrite Hh in H. rewrite (dispatch_home name2 a2 V2 w req H).
    reflexivity.
  - rewrite (dispatch_static name1 a1 V1 w req v H).
    rewrite Hh in H. rewrite (dispatch_static name2 a2 V2 w req v H).
    reflexivity.
  - rewrite (dispatch_raises a1 w req e H).
    rewrite Hh in H. rewrite (dispatch_raises a2 w req e H). reflexivity.
Qed.

(** The response as it is sent, from the result of dispatching. *)
Lemma wsgi_app_dispatch (w : World) (a : App) (req : Request) :
  snd (wsgi_app w a req)
  = match
      match
        dispatch_request w
          {| import_name := import_name a; config := config a;
             url_map := url_map a; view_functions := view_functions a;
             got_first_request := true |} req
      with
      | Returns rv => Returns (make_response rv)
      | Raises e =>
          match http_exception_response e with
          | Some r => Returns r
          | None => Raises e
          end
      | Unmodelled => Unmodelled
      end
    with
    | Returns r =>
        Returns (if String.eqb (method req) "HEAD"
                 then {| status_code := status_code r;
                         content_type := content_type r;
                         allow := allow r; location := location r;
                         body := Text "" |}
                 else r)
    | Raises e =>
        handle_exception
          {| import_name := import_name a; config := config a;
             url_map := url_map a; view_functions := view_functions a;
             got_first_request := true |} e
    | Unmodelled => Unmodelled
    end.
Proof. reflexivity. Qed.

(** The response to a request, by the way the request goes.  The response
    as sent has the status of the response as built; a HEAD request loses
    the body. *)
Lemma wsgi_app_cases (w : World) (name : string) (a : App) (req : Request) :
  url_map a = [static_rule; home_rule] ->
  view_functions a = site_views name ->
  exists r0 r,
    snd (wsgi_app w a req) = Returns r
    /\ snd (full_dispatch_request w a req) = Returns r0
    /\ status_code r = status_code r0
    /\ content_type r = content_type r0
    /\ body r = (if String.eqb (method req) "HEAD" then Text "" else body r0)
    /\ ((r0 = make_default_options_response a req
         /\ Str.upper (method req) = "OPTIONS"
         /\ is_websocket req = false)
        \/ (r0 = text_response home_source
            /\ path_part (path req) = "/"
            /\ Str.mem (Str.upper (method req)) ["GET"; "HEAD"] = true
            /\ is_websocket req = false)
        \/ (exists v,
              static_file w req v = Some r0
              /\ path_part (path req) = "/static/" +:+ v
              /\ Str.mem (Str.upper (method req)) ["GET"; "HEAD"] = true
              /\ is_websocket req = false)
        \/ (In (status_code r0) [308; 400; 404; 405]
            /\ body r0 = StatusPage (status_code r0)
            /\ ((exists v, path_part (path req) = "/static/" +:+ v)
                \/ exists e, handler_for a req = Raises e))).
Proof.
  intros R V.
  set (a' := {| import_name := import_name a; config := config a;
                url_map := url_map a; view_functions := view_functions a;
                got_first_request := true |}).
  rewrite wsgi_app_dispatch. fold a'.
  change (snd (full_dispatch_request w a req))
    with (match dispatch_request w a' req with
          | Returns rv => Returns (make_response rv)
          | Raises e =>
              match http_exception_response e with
              | Some r => Returns r
              | None => Raises e
              end
          | Unmodelled => Unmodelled
          end).
  rewrite (dispatch_request_agree w name name a' a req R V R V).
  destruct (dispatch_request_cases name a R V w req)
    as [(H & Ho)|[(H & Hp)|[(v & r0 & H & Hf)
                            |(e & r0 & H & He & Hs & Hh)]]];
    rewrite H; cbn [make_response]; rewrite ?He.
  - exists (make_default_options_response a req). eexists.
    split; [reflexivity|]. split; [reflexivity|].
    destruct (String.eqb (method req) "HEAD"); repeat split; auto.
  - exists (text_response home_source). eexists.
    split; [reflexivity|]. split; [reflexivity|].
    destruct (String.eqb (method req) "HEAD"); repeat split; auto.
  - exists r0. eexists. split; [reflexivity|]. split; [reflexivity|].
    destruct (String.eqb (method req) "HEAD"); repeat split; eauto 10.
  - exists r0. eexists. split; [reflexivity|]. split; [reflexivity|].
    assert (Hb : body r0 = StatusPage (status_code r0)).
    { destruct e; cbn in He; try discriminate; injection He as <-;
        reflexivity. }
    assert (Hh' : (exists v, path_part (path req) = "/static/" +:+ v)
                  \/ exists e, handler_for a req = Raises e).
    { destruct Hh as [Hh|Hh]; eauto. }
    destruct (String.eqb (method req) "HEAD"); repeat split; auto 6.
Qed.


(** The application that [app] builds, after any history. *)
Lemma served_app (name : string) (environ : gmap string string)
    (a : App) (history : list (World * Request)) :
  app name environ = Returns a ->
  url_map (serve a history) = [static_rule; home_rule]
  /\ view_functions (serve a history) = site_views name.
Proof.
  intros Ha. rewrite app_value in Ha. injection Ha as <-.
  match goal with |- context [serve ?a history] =>
    destruct (serve_frame a history) as [mark ->] end.
  split; reflexivity.
Qed.

(** A request that goes to [home]: the view is called without arguments
    inside the request's context and returns the template literal, which
    becomes the body of a 200 response; a HEAD request is sent the response
    without the body. *)
Lemma home_handled (w : World) (name : string) (a : App) (req : Request)
    (view_args : list (string * string)) :
  url_map a = [static_rule; home_rule] ->
  view_functions a = site_views name ->
  handler_for a req = Returns (ViewCall "home" view_args) ->
  view_args = []
  /\ dispatch_request w a req = Returns (RvStr home_source)
  /\ snd (full_dispatch_request w a req)
     = Returns (text_response home_source)
  /\ snd (wsgi_app w a req)
     = Returns (if String.eqb (method req) "HEAD"
                then {| status_code := 200;
                        content_type := "text/html; charset=utf-8";
                        allow := []; location := None; body := Text "" |}
                else text_response home_source).
Proof.
  intros R V H.
  assert (Hargs : view_args = []).
  { destruct (handler_for_cases a R req)
      as [[E _]|[(E & _)|[(v & E & _)|(e & E & _)]]];
      rewrite E in H; try discriminate.
    injection H as <-. reflexivity. }
  subst view_args.
  pose proof (dispatch_home name a V w req H) as Hd.
  set (a' := {| import_name := import_name a; config := config a;
                url_map := url_map a; view_functions := view_functions a;
                got_first_request := true |}).
  assert (Hd' : dispatch_request w a' req = Returns (RvStr home_source)).
  { rewrite (dispatch_request_agree w name name a' a req R V R V).
    exact Hd. }
  split; [reflexivity|]. split; [exact Hd|].
  split.
  - change (snd (full_dispatch_request w a req))
      with (match dispatch_request w a' req with
            | Returns rv => Returns (make_response rv)
            | Raises e =>
                match http_exception_response e with
                | Some r => Returns r
                | None => Raises e
                end
            | Unmodelled => Unmodelled
            end).
    rewrite Hd'. reflexivity.
  - rewrite wsgi_app_dispatch. fold a'. rewrite Hd'.
    destruct (String.eqb (method req) "HEAD"); reflexivity.
Qed.

End Responses.

(** ** GET / *)

(** What the application answers to GET "/", whatever the query string, the
    body, the world and the requests served before: the page of [home], and
    the framework's 400 page where the headers make the request a WebSocket
    handshake. *)
Lemma get_root_response (name : string) (environ : gmap string string)
    (a : App) (history : list (World * Request)) (w : World) (req : Request) :
  app name environ = Returns a ->
  method req = "GET" -> path req = "/" ->
  respond a history w req
  = Returns (if is_websocket req then status_response 400 [] None
             else text_response home_source).
Proof.
  intros Ha Hm Hp. rewrite app_value in Ha. injection Ha as <-.
  rewrite respond_history, wsgi_app_dispatch.
  unfold dispatch_request, handler_for. cbn [url_map].
  rewrite Hm, Hp, match_url_root.
  destruct (is_websocket req); reflexivity.
Qed.







(** C3: the Content-Type of the response to a GET request to "/" is
    text/html (sent as "text/html; charset=utf-8"). *)
Theorem get_root_content_type (name : string) (environ : gmap string string)
    (history : list (World * Request)) (w : World) (req : Request) :
  method req = "GET" -> path req = "/" ->
  exists a r,
    app name environ = Returns a
    /\ respond a history w req = Returns r
    /\ mimetype r = "text/html"
    /\ content_type r = "text/html; charset=utf-8".
Proof.
  intros Hm Hp.
  eexists _, _.
  split; [apply app_value|].
  split; [apply (get_root_response name environ); auto using app_value|].
  destruct (is_websocket req); split; reflexivity.
Qed.

Lemma get_root_content_type_witness :
  method (bare_request "GET" "/") = "GET"
  /\ path (bare_request "GET" "/") = "/"
  /\ exists a r,
       app "__main__" ∅ = Returns a
       /\ respond a [] bare_world (bare_request "GET" "/") = Returns r
       /\ mimetype r = "text/html"
       /\ content_type r = "text/html; charset=utf-8".
Proof.
  split; [reflexivity|]. split; [reflexivity|].
  apply (get_root_content_type "__main__" ∅ [] bare_world
           (bare_request "GET" "/")); reflexivity.
Defined.

(** ** Paths without a route *)




(** ** Other methods on "/" *)





(** ** Two requests *)




(** ** The entry point *)


(** The environment in which [run] calls [run_simple] is the process
    environment, extended or not by the .env files. *)
Lemma run_environ (a : App) (environ dotenv : gmap string string)
    (debug : option bool) :
  environ !! "FLASK_RUN_FROM_CLI" <> Some "true" ->
  exists a' c,
    run a environ dotenv None None debug true = (a', Some c)
    /\ (process_environ c = environ \/ process_environ c = environ ∪ dotenv)
    /\ host c = "127.0.0.1" /\ port c = 5000 /\ threaded c = true
    /\ use_reloader c = DEBUG (config a')
    /\ use_debugger c = DEBUG (config a')
    /\ url_map a' = url_map a /\ view_functions a' = view_functions a
    /\ match debug with
       | Some d => DEBUG (config a') = d
       | None => True
       end.
Proof.
  intros Hcli. unfold run.
  rewrite bool_decide_eq_false_2 by exact Hcli.
  destruct (get_load_dotenv environ true);
    [destruct (bool_decide (is_Some ((environ ∪ dotenv) !! "FLASK_DEBUG")))|];
    cbn [andb]; destruct debug; eexists _, _;
    (split; [reflexivity|]); cbn; auto 10.
Qed.



(** ** The state of the application *)

(** C8: serving any sequence of requests leaves the registered routes, the
    view functions and the configuration of the application as they were at
    start-up, and no response depends on what was served before it. *)
Theorem serving_keeps_routes_and_config
    (name : string) (environ : gmap string string)
    (history : list (World * Request)) :
  exists a,
    app name environ = Returns a
    /\ url_map (serve a history) = url_map a
    /\ view_functions (serve a history) = view_functions a
    /\ config (serve a history) = config a
    /\ import_name (serve a history) = import_name a
    /\ forall (w : World) (req : Request),
         respond a history w req = respond a [] w req.
Proof.
  eexists. split; [apply app_value|].
  match goal with |- context [serve ?a history] =>
    destruct (serve_frame a history) as [mark Hs] end.
  rewrite Hs. repeat split.
  intros w req. rewrite !respond_history. reflexivity.
Qed.

(** ** The handler *)

(** C9: the template literal holds no template syntax, so rendering returns
    it unchanged, leading line break and indentation included, and that
    literal is the body of the response that is built for every request
    that goes to [home]; the response is sent as it is built, unless the
    method is HEAD. *)
Theorem rendering_is_identity (name : string) (environ : gmap string string)
    (a : App) (history : list (World * Request)) (w : World) (req : Request)
    (ctx : Context) (view_args : list (string * string)) :
  app name environ = Returns a ->
  handler_for (serve a history) req = Returns (ViewCall "home" view_args) ->
  Jinja.has_template_syntax home_source = false
  /\ render_template_string (Some ctx) home_source = Returns home_source
  /\ Str.startswith (String "010" "        <!doctype html>") home_source = true
  /\ String.length home_source = 154
  /\ exists r,
       snd (full_dispatch_request w (serve a history) req) = Returns r
       /\ body r = Text home_source
       /\ (method req <> "HEAD" -> respond a history w req = Returns r).
Proof.
  intros Ha H. repeat (split; [reflexivity|]).
  destruct (served_app name environ a history Ha) as [R V].
  destruct (home_handled w name _ req view_args R V H)
    as (_ & _ & Hf & Hw).
  exists (text_response home_source).
  split; [exact Hf|]. split; [reflexivity|].
  intros Hhead. unfold respond. rewrite Hw.
  destruct (String.eqb_spec (method req) "HEAD"); [contradiction|].
  reflexivity.
Qed.

Lemma rendering_is_identity_witness :
  exists a,
    app "__main__" ∅ = Returns a
    /\ handler_for (serve a []) busy_request = Returns (ViewCall "home" [])
    /\ Jinja.has_template_syntax home_source = false
    /\ render_template_string
         (Some {| ctx_config := {| DEBUG := true; TESTING := false;
                                   PROPAGATE_EXCEPTIONS := None |};
                  ctx_request := busy_request; ctx_world := bare_world |})
         home_source = Returns home_source
    /\ Str.startswith (String "010" "        <!doctype html>") home_source
       = true
    /\ String.length home_source = 154
    /\ exists r,
         snd (full_dispatch_request bare_world (serve a []) busy_request)
         = Returns r
         /\ body r = Text home_source
         /\ (method busy_request <> "HEAD" ->
             respond a [] bare_world busy_request = Returns r).
Proof.
  eexists. split; [apply app_value|]. split; [reflexivity|].
  eapply (rendering_is_identity "__main__" ∅ _ [] bare_world busy_request
            _ []);
    [apply app_value|reflexivity].
Defined.

(** C10, as stated, fails: called outside an application context, [home]
    raises RuntimeError, since [render_template_string] needs the template
    environment of the current application. *)
Lemma home_outside_context_raises :
  home None = Raises RuntimeError
  /\ forall s, home None <> Returns s.
Proof. split; [reflexivity|discriminate]. Qed.

(** C10, amended: [home] takes no argument and looks at nothing in the
    request.  Called inside an application context it returns, and returns
    the same string whatever the context holds; it never raises there.
    Every call that request dispatch makes is such a call: it passes no
    argument and yields that string. *)
Theorem home_total_in_context (name : string) (environ : gmap string string)
    (a : App) (history : list (World * Request)) (w : World) (req : Request)
    (view_args : list (string * string)) (ctx1 ctx2 : Context) :
  app name environ = Returns a ->
  handler_for (serve a history) req = Returns (ViewCall "home" view_args) ->
  (exists s,
     home (Some ctx1) = Returns s
     /\ home (Some ctx2) = Returns s
     /\ dispatch_request w (serve a history) req = Returns (RvStr s))
  /\ (forall e, home (Some ctx1) <> Raises e)
  /\ home (Some ctx1) <> Unmodelled
  /\ view_args = [].
Proof.
  intros Ha H.
  destruct (served_app name environ a history Ha) as [R V].
  destruct (home_handled w name _ req view_args R V H)
    as (Hargs & Hd & _ & _).
  split; [exists home_source; repeat split; exact Hd|].
  split; [intros e; discriminate|].
  split; [discriminate|exact Hargs].
Qed.

Lemma home_total_in_context_witness :
  exists a,
    app "__main__" ∅ = Returns a
    /\ handler_for (serve a [(bare_world, bare_request "POST" "/")])
         (bare_request "HEAD" "/") = Returns (ViewCall "home" [])
    /\ (exists s,
          home (Some {| ctx_config := {| DEBUG := true; TESTING := false;
                                         PROPAGATE_EXCEPTIONS := None |};
                        ctx_request := busy_request;
                        ctx_world := bare_world |}) = Returns s
          /\ home (Some {| ctx_config := {| DEBUG := false; TESTING := true;
                                            PROPAGATE_EXCEPTIONS := Some true |};
                           ctx_request := bare_request "HEAD" "/";
                           ctx_world := styled_world |}) = Returns s
          /\ dispatch_request styled_world
               (serve a [(bare_world, bare_request "POST" "/")])
               (bare_request "HEAD" "/") = Returns (RvStr s))
    /\ (forall e,
          home (Some {| ctx_config := {| DEBUG := true; TESTING := false;
                                         PROPAGATE_EXCEPTIONS := None |};
                        ctx_request := busy_request;
                        ctx_world := bare_world |}) <> Raises e)
    /\ home (Some {| ctx_config := {| DEBUG := true; TESTING := false;
                                      PROPAGATE_EXCEPTIONS := None |};
                     ctx_request := busy_request;
                     ctx_world := bare_world |}) <> Unmodelled
    /\ ([] : list (string * string)) = [].
Proof.
  eexists. split; [apply app_value|]. split; [reflexivity|].
  eapply (home_total_in_context "__main__" ∅ _
            [(bare_world, bare_request "POST" "/")] styled_world
            (bare_request "HEAD" "/") []);
    [apply app_value|reflexivity].
Defined.

(** ** Beyond GET / *)

(** X1: a request whose path is not under "/static/" never reaches the
    static folder, and the application answers it whatever the method, the
    headers, the world, the environment and the history: nothing it raises
    escapes, no request leaves the modelled framework, and the status is
    200, 308, 400, 404 or 405. *)
Theorem every_request_is_answered (name : string)
    (environ : gmap string string) (history : list (World * Request))
    (w : World) (req : Request) :
  Str.startswith "/static/" (path_part (path req)) = false ->
  exists a,
    app name environ = Returns a
    /\ (forall view_args,
          handler_for (serve a history) req
          <> Returns (ViewCall "static" view_args))
    /\ exists r,
         respond a history w req = Returns r
         /\ In (status_code r) [200; 308; 400; 404; 405].
Proof.
  intros Hstatic.
  assert (Hv : forall v, path_part (path req) <> "/static/" +:+ v).
  { intros v E. rewrite E, startswith_of_app in Hstatic. discriminate. }
  eexists. split; [apply app_value|].
  destruct (served_app name environ _ history (app_value name environ))
    as [R V].
  split.
  - intros view_args H.
    destruct (handler_for_cases _ R req)
      as [[E _]|[(E & _)|[(v & E & Hp & _)|(e & E & _)]]];
      rewrite E in H; try discriminate.
    exact (Hv v Hp).
  - unfold respond.
    destruct (wsgi_app_cases w name _ req R V)
      as (r0 & r & Hr & _ & Hs & _ & _ & Hc).
    exists r. split; [exact Hr|]. rewrite Hs.
    destruct Hc as [[-> _]|[[-> _]|[(v & _ & Hp & _)|[Hin _]]]].
    + cbn. auto.
    + cbn. auto.
    + destruct (Hv v Hp).
    + right. exact Hin.
Qed.

Lemma every_request_is_answered_witness :
  Str.startswith "/static/" (path_part (path (handshake_request "PUT" "")))
  = false
  /\ exists a,
       app "app.main" ∅ = Returns a
       /\ (forall view_args,
             handler_for (serve a [(styled_world, busy_request)])
               (handshake_request "PUT" "")
             <> Returns (ViewCall "static" view_args))
       /\ exists r,
            respond a [(styled_world, busy_request)] styled_world
              (handshake_request "PUT" "") = Returns r
            /\ In (status_code r) [200; 308; 400; 404; 405].
Proof.
  split; [reflexivity|].
  apply (every_request_is_answered "app.main" ∅ [(styled_world, busy_request)]
           styled_world (handshake_request "PUT" "")).
  reflexivity.
Defined.

(** X2: [home] is called for nothing but the path "/" with GET or HEAD, and
    always without arguments. *)
Theorem home_reached_only_at_root (name : string)
    (environ : gmap string string) (a : App)
    (history : list (World * Request)) (req : Request)
    (view_args : list (string * string)) :
  app name environ = Returns a ->
  handler_for (serve a history) req = Returns (ViewCall "home" view_args) ->
  view_args = []
  /\ path_part (path req) = "/"
  /\ Str.mem (Str.upper (method req)) ["GET"; "HEAD"] = true.
Proof.
  intros Ha H.
  destruct (served_app name environ a history Ha) as [R V].
  destruct (handler_for_cases _ R req)
    as [[E _]|[(E & Hp & Hm & _)|[(v & E & _)|(e & E & _)]]];
    rewrite E in H; try discriminate.
  injection H as <-. auto.
Qed.

Lemma home_reached_only_at_root_witness :
  exists a,
    app "__main__" ∅ = Returns a
    /\ handler_for (serve a []) busy_request = Returns (ViewCall "home" [])
    /\ ([] : list (string * string)) = []
    /\ path_part (path busy_request) = "/"
    /\ Str.mem (Str.upper (method busy_request)) ["GET"; "HEAD"] = true.
Proof.
  eexists. split; [apply app_value|]. split; [reflexivity|].
  eapply (home_reached_only_at_root "__main__" ∅ _ [] busy_request []);
    [apply app_value|reflexivity].
Defined.



(** X4: imported under any other name than "__main__", the module starts no
    server, and the debug flag of the application is what FLASK_DEBUG
    says. *)
Theorem import_starts_no_server (name : string) (argv : list string)
    (environ dotenv : gmap string string) :
  name <> "__main__" ->
  exists a,
    app name environ = Returns a
    /\ main name argv environ dotenv = Returns (a, None)
    /\ DEBUG (config a) = get_debug_flag environ.
Proof.
  intros Hname. eexists. split; [apply app_value|].
  unfold main. rewrite app_value, bind_returns.
  destruct (String.eqb_spec name "__main__"); [contradiction|].
  split; reflexivity.
Qed.

Lemma import_starts_no_server_witness :
  "app.main" <> "__main__"
  /\ exists a,
       app "app.main" {["FLASK_DEBUG" := "1"]} = Returns a
       /\ main "app.main" [] {["FLASK_DEBUG" := "1"]} ∅ = Returns (a, None)
       /\ DEBUG (config a) = get_debug_flag {["FLASK_DEBUG" := "1"]}.
Proof.
  split; [discriminate|].
  apply (import_starts_no_server "app.main" [] {["FLASK_DEBUG" := "1"]} ∅).
  discriminate.
Defined.







(** X8: a WebSocket handshake reaches neither a view nor the automatic
    OPTIONS response, whatever its method and path: both rules of the
    application are HTTP rules, and the answer is the framework's 400, 404
    or 405 page. *)
Theorem handshake_reaches_no_view (name : string)
    (environ : gmap string string) (history : list (World * Request))
    (w : World) (req : Request) :
  is_websocket req = true ->
  exists a,
    app name environ = Returns a
    /\ (forall h, handler_for (serve a history) req <> Returns h)
    /\ exists r,
         respond a history w req = Returns r
         /\ In (status_code r) [400; 404; 405].
Proof.
  intros Hw.
  eexists. split; [apply app_value|].
  match goal with |- context [serve ?a history] =>
    destruct (serve_frame a history) as [mark Hs] end.
  rewrite respond_history, Hs.
  assert (Hcases : forall a0,
    url_map a0
    = [ {| rule := "/static/<path:filename>";
           methods := ["GET"; "OPTIONS"; "HEAD"];
           endpoint := "static"; provide_automatic_options := true;
           websocket := false |};
        {| rule := "/"; methods := ["GET"; "OPTIONS"; "HEAD"];
           endpoint := "home"; provide_automatic_options := true;
           websocket := false |} ] ->
    exists e,
      handler_for a0 req = Raises e
      /\ (e = NotFound \/ (exists valid, e = MethodNotAllowed valid)
          \/ e = WebsocketMismatch)).
  { intros a0 R. unfold handler_for. rewrite R, Hw.
    destruct (match_url_handshake (method req) (path req)) as (e & -> & He).
    rewrite bind_raises. eauto. }
  split.
  - intros h Hh.
    match type of Hh with handler_for ?a0 req = _ =>
      destruct (Hcases a0 eq_refl) as (e & E & _) end.
    congruence.
  - rewrite wsgi_app_dispatch.
    match goal with |- context [dispatch_request w ?a' req] =>
      destruct (Hcases a' eq_refl) as (e & E & He);
      rewrite (dispatch_raises a' w req e E) end.
    destruct He as [->|[[valid ->]| ->]]; eexists;
      (split; [reflexivity|]);
      destruct (String.eqb (method req) "HEAD"); cbn; auto.
Qed.

Lemma handshake_reaches_no_view_witness :
  is_websocket (handshake_request "GET" "/static/style.css") = true
  /\ exists a,
       app "__main__" ∅ = Returns a
       /\ (forall h,
             handler_for (serve a [])
               (handshake_request "GET" "/static/style.css")
             <> Returns h)
       /\ exists r,
            respond a [] styled_world
              (handshake_request "GET" "/static/style.css") = Returns r
            /\ In (status_code r) [400; 404; 405].
Proof.
  split; [reflexivity|].
  apply (handshake_reaches_no_view "__main__" ∅ [] styled_world
           (handshake_request "GET" "/static/style.css")).
  reflexivity.
Defined.

(** X9: run as the main program in an environment that holds
    WERKZEUG_RUN_MAIN=true but no WERKZEUG_SERVER_FD, the module still
    calls [run_simple], which takes the process for the reloader's child,
    binds nothing and fails with KeyError. *)
Theorem reloader_child_needs_descriptor (argv : list string)
    (environ dotenv : gmap string string) (os : Os) :
  environ !! "FLASK_RUN_FROM_CLI" <> Some "true" ->
  environ !! "WERKZEUG_RUN_MAIN" = Some "true" ->
  environ !! "WERKZEUG_SERVER_FD" = None ->
  dotenv !! "WERKZEUG_SERVER_FD" = None ->
  exists a c,
    main "__main__" argv environ dotenv = Returns (a, Some c)
    /\ run_simple os c = Raises KeyError.
Proof.
  intros Hcli Hmain Hfd Hdot. unfold main. rewrite app_value.
  cbn [mbind outcome_bind String.eqb].
  match goal with |- context [run ?a0 environ dotenv None None _ true] =>
    destruct (run_environ a0 environ dotenv (Some true) Hcli)
      as (a' & c & -> & He & _) end.
  exists a', c. split; [reflexivity|].
  unfold run_simple, is_running_from_reloader.
  destruct He as [-> | ->].
  - rewrite bool_decide_eq_true_2 by exact Hmain. rewrite Hfd. reflexivity.
  - rewrite bool_decide_eq_true_2
      by (apply lookup_union_Some_raw; left; exact Hmain).
    assert (E : (environ ∪ dotenv) !! "WERKZEUG_SERVER_FD" = None).
    { apply lookup_union_None. auto. }
    rewrite E. reflexivity.
Qed.

Lemma reloader_child_needs_descriptor_witness :
  ({["WERKZEUG_RUN_MAIN" := "true"]} : gmap string string)
    !! "FLASK_RUN_FROM_CLI" <> Some "true"
  /\ ({["WERKZEUG_RUN_MAIN" := "true"]} : gmap string string)
       !! "WERKZEUG_RUN_MAIN" = Some "true"
  /\ ({["WERKZEUG_RUN_MAIN" := "true"]} : gmap string string)
       !! "WERKZEUG_SERVER_FD" = None
  /\ (∅ : gmap string string) !! "WERKZEUG_SERVER_FD" = None
  /\ exists a c,
       main "__main__" [] {["WERKZEUG_RUN_MAIN" := "true"]} ∅
       = Returns (a, Some c)
       /\ run_simple free_os c = Raises KeyError.
Proof.
  split; [discriminate|]. split; [reflexivity|]. split; [reflexivity|].
  split; [reflexivity|].
  apply (reloader_child_needs_descriptor [] {["WERKZEUG_RUN_MAIN" := "true"]}
           ∅ free_os); [discriminate|reflexivity|reflexivity|reflexivity].
Defined.
